(** * AboutBlankWatchdog (browser_use/browser/watchdogs/aboutblank_watchdog.py)

    Shallow embedding of the about:blank watchdog.  Every await on the browser
    session or on the event bus is a collaborator call: it is recorded in the
    output trace together with the reply the collaborator gave, and the reply
    is read from an oracle indexed by the position of the call, so that every
    theorem quantifies over every possible behaviour of the collaborators.
    A Python exception is the [Exc] result of the monad; [try ... except]
    is [try_except]. *)

From Stdlib Require Import String List Bool Arith Lia.
Import ListNotations.
Open Scope string_scope.

(** ** Data model *)

(** A page target as returned by [_cdp_get_all_pages]. *)
Record PageTarget := mkPageTarget { targetId : string; url : string }.

(** The bus events the watchdog can dispatch (its [EMITS] types). *)
Inductive BusEvent :=
| NavigateToUrlEvent (nav_url : string) (new_tab : bool)
| CloseTabEvent (close_target : string)
| AboutBlankDVDScreensaverShownEvent (shown_target : string).

(** The event types the watchdog listens to ([LISTENS_TO]). *)
Inductive WatchdogEvent :=
| BrowserStopEvent
| BrowserStoppedEvent
| TabCreatedEvent (created_target : string) (created_url : string)
| TabClosedEvent (closed_target : string).

(** A CDP session of the browser session ([get_or_create_cdp_session]). *)
Record CDPSession := mkCDPSession { sess_target_id : string; session_id : string }.

(** Collaborator calls. *)
Inductive Call :=
| CdpGetAllPages                                 (* browser_session._cdp_get_all_pages() *)
| Dispatch (e : BusEvent)                        (* event_bus.dispatch(e) *)
| AwaitEvent (e : BusEvent)                      (* await <dispatched event> *)
| GetOrCreateCdpSession (target : string) (focus : bool)
| RuntimeEvaluate (sess : CDPSession) (expression : string).

(** Replies of the collaborators; [RError] is a raised exception. *)
Inductive Reply :=
| RPages (pages : list PageTarget)
| RSession (sid : string)
| RDone
| RError (msg : string).

Inductive LogLevel := Debug | Error.

(** One observable step: a collaborator call with its reply, or a log line. *)
Inductive Entry :=
| ECall (c : Call) (r : Reply)
| ELog (lvl : LogLevel) (msg : string).

Inductive Result (A : Type) :=
| Ok (a : A)
| Exc (msg : string).
Arguments Ok {A} a.
Arguments Exc {A} msg.

(** The private state of the watchdog: [_stopping], plus the id of its
    browser session (read for the label) and the count of collaborator calls
    made so far (the oracle's index). *)
Record St := mkSt { stopping : bool; browser_session_id : string; pos : nat }.

Definition Oracle := nat -> Call -> Reply.

Definition BLANK := "about:blank".

Definition blank_nav := NavigateToUrlEvent BLANK true.

(** [str(self.browser_session.id)[-4:]] *)
Definition last4 (s : string) : string :=
  if Nat.leb (String.length s) 4 then s else substring (String.length s - 4) 4 s.

(** The injected script: only its label parameter matters to the watchdog. *)
Definition dvd_script (browser_session_label : string) : string :=
  "(function(browser_session_label) { /* DVD screensaver */ })('"
    ++ browser_session_label ++ "');".

(** ** The watchdog monad: state, output trace and exceptions *)

Section Watchdog.

Variable oracle : Oracle.

Definition M (A : Type) := St -> Result A * St * list Entry.

Definition ret {A} (a : A) : M A := fun s => (Ok a, s, []).

Definition bind {A B} (m : M A) (k : A -> M B) : M B :=
  fun s =>
    match m s with
    | (Ok a, s1, t1) => let '(r, s2, t2) := k a s1 in (r, s2, (t1 ++ t2)%list)
    | (Exc e, s1, t1) => (Exc e, s1, t1)
    end.

Definition raise {A} (msg : string) : M A := fun s => (Exc msg, s, []).

Definition try_except {A} (m : M A) (h : string -> M A) : M A :=
  fun s =>
    match m s with
    | (Exc e, s1, t1) => let '(r, s2, t2) := h e s1 in (r, s2, (t1 ++ t2)%list)
    | ok => ok
    end.

Local Notation "x <- m ;; k" := (bind m (fun x => k))
  (at level 61, m at next level, right associativity).
Local Notation "m ;; k" := (bind m (fun _ : unit => k))
  (at level 61, right associativity).

Definition call (c : Call) : M Reply :=
  fun s => let r := oracle (pos s) c in
           (Ok r, mkSt (stopping s) (browser_session_id s) (S (pos s)), [ECall c r]).

Definition log (lvl : LogLevel) (msg : string) : M unit :=
  fun s => (Ok tt, s, [ELog lvl msg]).

Definition get_stopping : M bool := fun s => (Ok (stopping s), s, []).

Definition set_stopping (b : bool) : M unit :=
  fun s => (Ok tt, mkSt b (browser_session_id s) (pos s), []).

Definition get_session_label : M string :=
  fun s => (Ok (last4 (browser_session_id s)), s, []).

Definition _cdp_get_all_pages : M (list PageTarget) :=
  r <- call CdpGetAllPages ;;
  match r with
  | RPages ps => ret ps
  | RError e => raise e
  | _ => raise "unexpected reply"
  end.

(** A call whose value the watchdog does not use: only its failure matters. *)
Definition call_unit (c : Call) : M unit :=
  r <- call c ;;
  match r with
  | RError e => raise e
  | _ => ret tt
  end.

Definition dispatch (e : BusEvent) : M unit := call_unit (Dispatch e).

Definition await_event (e : BusEvent) : M unit := call_unit (AwaitEvent e).

Definition get_or_create_cdp_session (target : string) (focus : bool) : M CDPSession :=
  r <- call (GetOrCreateCdpSession target focus) ;;
  match r with
  | RSession sid => ret (mkCDPSession target sid)
  | RError e => raise e
  | _ => raise "unexpected reply"
  end.

Definition runtime_evaluate (sess : CDPSession) (expression : string) : M unit :=
  call_unit (RuntimeEvaluate sess expression).

Fixpoint for_each {A} (f : A -> M unit) (l : list A) : M unit :=
  match l with
  | [] => ret tt
  | x :: l' => f x ;; for_each f l'
  end.

(** ** The watchdog's methods *)

Definition _show_dvd_screensaver_loading_animation_cdp
  (target_id : string) (browser_session_label : string) : M unit :=
  try_except
    (temp_session <- get_or_create_cdp_session target_id false ;;
     runtime_evaluate temp_session (dvd_script browser_session_label) ;;
     dispatch (AboutBlankDVDScreensaverShownEvent target_id))
    (fun e => log Error ("[AboutBlankWatchdog] Error injecting DVD screensaver: " ++ e)).

Definition _show_dvd_screensaver_on_about_blank_tabs : M unit :=
  try_except
    (page_targets <- _cdp_get_all_pages ;;
     browser_session_label <- get_session_label ;;
     for_each (fun page_target =>
                 if String.eqb (url page_target) BLANK
                 then _show_dvd_screensaver_loading_animation_cdp
                        (targetId page_target) browser_session_label
                 else ret tt) page_targets)
    (fun e => log Error ("[AboutBlankWatchdog] Error showing DVD screensaver: " ++ e)).

Definition _check_and_ensure_about_blank_tab : M unit :=
  try_except
    (page_targets <- _cdp_get_all_pages ;;
     if Nat.eqb (List.length page_targets) 0 then
       log Debug "[AboutBlankWatchdog] No tabs exist, creating new about:blank DVD screensaver tab" ;;
       dispatch blank_nav ;;
       await_event blank_nav ;;
       _show_dvd_screensaver_on_about_blank_tabs
     else ret tt)
    (fun e => log Error ("[AboutBlankWatchdog] Error ensuring about:blank tab: " ++ e)).

Definition on_BrowserStopEvent : M unit := set_stopping true.

Definition on_BrowserStoppedEvent : M unit := set_stopping true.

Definition on_TabCreatedEvent (event_url : string) : M unit :=
  if String.eqb event_url BLANK then _show_dvd_screensaver_on_about_blank_tabs
  else ret tt.

Definition on_TabClosedEvent : M unit :=
  st <- get_stopping ;;
  if st then ret tt
  else
    page_targets <- _cdp_get_all_pages ;;
    if Nat.leb (List.length page_targets) 1 then
      log Debug "[AboutBlankWatchdog] Last tab closing, creating new about:blank tab to avoid closing entire browser" ;;
      dispatch blank_nav ;;
      await_event blank_nav ;;
      _show_dvd_screensaver_on_about_blank_tabs
    else _check_and_ensure_about_blank_tab.

(** The bus calls the handler named after the event type. *)
Definition handle (ev : WatchdogEvent) : M unit :=
  match ev with
  | BrowserStopEvent => on_BrowserStopEvent
  | BrowserStoppedEvent => on_BrowserStoppedEvent
  | TabCreatedEvent _ u => on_TabCreatedEvent u
  | TabClosedEvent _ => on_TabClosedEvent
  end.

(** A sequence of events handled one after the other; each handler's result
    (an exception it let escape included) and trace are kept per event. *)
Fixpoint run_events (evs : list WatchdogEvent) (s : St)
  : St * list (WatchdogEvent * Result unit * list Entry) :=
  match evs with
  | [] => (s, [])
  | ev :: evs' =>
      let '(r, s1, t) := handle ev s in
      let '(s2, segs) := run_events evs' s1 in
      (s2, (ev, r, t) :: segs)
  end.

End Watchdog.

(** The [EMITS] class variable. *)
Inductive EmitKind := KNavigateToUrl | KCloseTab | KDVDScreensaverShown.
Definition EMITS : list EmitKind := [KNavigateToUrl; KCloseTab; KDVDScreensaverShown].

(** ** The injected payload, run in the tab's execution context

    The state of the page that the script reads or changes: the marker
    [window.__dvdAnimationRunning], whether [document.body] and
    [document.head] exist, whether [document.readyState === 'loading'],
    the document title, and counters of what the script adds: overlay
    elements appended to the body, animation loops started, [resize]
    listeners, [<style>] elements in the head and pending
    [DOMContentLoaded] callbacks. *)
Record Window := mkWindow {
  dvdAnimationRunning : bool;
  has_body : bool;
  has_head : bool;
  ready_state_loading : bool;
  title : string;
  overlays : nat;
  animations : nat;
  resize_listeners : nat;
  styles : nat;
  ready_callbacks : nat }.

Definition animated_title := "Starting Agent Stapply...".

Definition set_running (b : bool) (w : Window) : Window :=
  mkWindow b (has_body w) (has_head w) (ready_state_loading w) (title w)
    (overlays w) (animations w) (resize_listeners w) (styles w) (ready_callbacks w).

Definition add_ready_callback (w : Window) : Window :=
  mkWindow (dvdAnimationRunning w) (has_body w) (has_head w) (ready_state_loading w)
    (title w) (overlays w) (animations w) (resize_listeners w) (styles w)
    (S (ready_callbacks w)).

(** Title set, overlay appended to the body, [animate()] started and the
    [resize] listener added.  Setting [document.title] does nothing in a
    document without a head (the [<title>] element it would create or update
    lives in the head). *)
Definition decorate (w : Window) : Window :=
  mkWindow (dvdAnimationRunning w) (has_body w) (has_head w) (ready_state_loading w)
    (if has_head w then animated_title else title w) (S (overlays w)) (S (animations w)) (S (resize_listeners w))
    (styles w) (ready_callbacks w).

Definition add_style (w : Window) : Window :=
  mkWindow (dvdAnimationRunning w) (has_body w) (has_head w) (ready_state_loading w)
    (title w) (overlays w) (animations w) (resize_listeners w) (S (styles w))
    (ready_callbacks w).

(** One run of the IIFE; the boolean tells whether it threw
    ([document.head.appendChild] on a missing head). *)
Definition run_payload (w : Window) : Window * bool :=
  if dvdAnimationRunning w then (w, false)
  else
    let w := set_running true w in
    if negb (has_body w) then
      let w := set_running false w in
      if ready_state_loading w then (add_ready_callback w, false) else (w, false)
    else if String.eqb (title w) animated_title then (w, false)
    else
      let w := decorate w in
      if has_head w then (add_style w, false) else (w, true).

Fixpoint run_callbacks (n : nat) (w : Window) : Window :=
  match n with
  | 0 => w
  | S n' => run_callbacks n' (fst (run_payload w))
  end.

(** [DOMContentLoaded]: the document is parsed (body and head exist) and
    every registered callback re-runs the IIFE. *)
Definition dom_content_loaded (w : Window) : Window :=
  run_callbacks (ready_callbacks w)
    (mkWindow (dvdAnimationRunning w) true true false (title w) (overlays w)
       (animations w) (resize_listeners w) (styles w) 0).

(** ** Concrete inputs *)

Definition demo_state : St := mkSt false "3f2a9c1e-77d0-4b1a-9e55-0c1d2e3f1234" 0.

(** One blank tab; every other collaborator call succeeds. *)
Definition one_blank_oracle : Oracle :=
  fun _ c => match c with
             | CdpGetAllPages => RPages [mkPageTarget "X" "about:blank"]
             | GetOrCreateCdpSession t _ => RSession ("session-" ++ t)
             | _ => RDone
             end.

(** Two blank tabs around a regular one; the session of the first blank tab
    cannot be created (the tab vanished). *)
Definition vanished_tab_oracle : Oracle :=
  fun _ c => match c with
             | CdpGetAllPages =>
                 RPages [mkPageTarget "A" "about:blank"; mkPageTarget "B" "https://example.com";
                         mkPageTarget "C" "about:blank"]
             | GetOrCreateCdpSession t _ =>
                 if String.eqb t "A" then RError "No target with given id found"
                 else RSession ("session-" ++ t)
             | _ => RDone
             end.

(** The tab enumeration raises. *)
Definition enumeration_fails_oracle : Oracle :=
  fun _ c => match c with
             | CdpGetAllPages => RError "Target closed"
             | GetOrCreateCdpSession t _ => RSession ("session-" ++ t)
             | _ => RDone
             end.

(** No tab is listed, and awaiting the navigation raises. *)
Definition await_fails_oracle : Oracle :=
  fun _ c => match c with
             | CdpGetAllPages => RPages []
             | AwaitEvent _ => RError "Navigation failed"
             | GetOrCreateCdpSession t _ => RSession ("session-" ++ t)
             | _ => RDone
             end.

(** One blank tab, whose session is created but in which the script
    evaluation raises. *)
Definition eval_fails_oracle : Oracle :=
  fun _ c => match c with
             | CdpGetAllPages => RPages [mkPageTarget "X" "about:blank"]
             | GetOrCreateCdpSession t _ => RSession ("session-" ++ t)
             | RuntimeEvaluate _ _ => RError "Execution context was destroyed"
             | _ => RDone
             end.

(** Two regular tabs, none of them blank. *)
Definition no_blank_oracle : Oracle :=
  fun _ c => match c with
             | CdpGetAllPages =>
                 RPages [mkPageTarget "B" "https://example.com"; mkPageTarget "D" "chrome://newtab/"]
             | _ => RDone
             end.

(** A document still loading, without a body yet. *)
Definition loading_window : Window := mkWindow false false true true "" 0 0 0 0 0.

(** ** Trace projections *)

Definition reply_ok (r : Reply) : bool :=
  match r with RError _ => false | _ => true end.

Definition is_shown (e : BusEvent) : bool :=
  match e with AboutBlankDVDScreensaverShownEvent _ => true | _ => false end.

Definition is_navigate (e : BusEvent) : bool :=
  match e with NavigateToUrlEvent _ _ => true | _ => false end.

(** The targets of the sessions requested, in order. *)
Definition session_targets (tr : list Entry) : list string :=
  flat_map (fun e => match e with
                     | ECall (GetOrCreateCdpSession t _) _ => [t]
                     | _ => []
                     end) tr.

(** The targets of the script evaluations, in order. *)
Definition eval_targets (tr : list Entry) : list string :=
  flat_map (fun e => match e with
                     | ECall (RuntimeEvaluate sess _) _ => [sess_target_id sess]
                     | _ => []
                     end) tr.

(** The events dispatched to the bus, in order. *)
Definition dispatched (tr : list Entry) : list BusEvent :=
  flat_map (fun e => match e with ECall (Dispatch ev) _ => [ev] | _ => [] end) tr.

Definition blank_ids (ts : list PageTarget) : list string :=
  map targetId (filter (fun p => String.eqb (url p) BLANK) ts).

Definition trace_of {A} (x : Result A * St * list Entry) : list Entry := snd x.
Definition result_of {A} (x : Result A * St * list Entry) : Result A := fst (fst x).
Definition state_of {A} (x : Result A * St * list Entry) : St := snd (fst x).

(** Traces in which every successful script evaluation is immediately
    followed by the dispatch of the confirmation for its target, every
    confirmation is such a follower, and no confirmation is awaited. *)
Definition plain (e : Entry) : bool :=
  match e with
  | ECall (RuntimeEvaluate _ _) _ => false
  | ECall (Dispatch ev) _ => negb (is_shown ev)
  | ECall (AwaitEvent ev) _ => negb (is_shown ev)
  | _ => true
  end.

Inductive good : list Entry -> Prop :=
| good_nil : good []
| good_plain e tr : plain e = true -> good tr -> good (e :: tr)
| good_eval_fail sess ex m tr :
    good tr -> good (ECall (RuntimeEvaluate sess ex) (RError m) :: tr)
| good_eval_ok sess ex r r' tr :
    reply_ok r = true -> good tr ->
    good (ECall (RuntimeEvaluate sess ex) r
          :: ECall (Dispatch (AboutBlankDVDScreensaverShownEvent (sess_target_id sess))) r'
          :: tr).

(** Every dispatched bus event is a navigation request or a confirmation. *)
Definition dispatch_allowed (e : Entry) : Prop :=
  match e with
  | ECall (Dispatch ev) _ => is_navigate ev = true \/ is_shown ev = true
  | _ => True
  end.

(** Every CDP session is requested without focus. *)
Definition unfocused (e : Entry) : Prop :=
  match e with
  | ECall (GetOrCreateCdpSession _ f) _ => f = false
  | _ => True
  end.

(** Modelled from the spec: the focus effect of the browser session's
    [get_or_create_cdp_session], whose code is not under src/.  The spec's
    browser-control interface (section 6) offers no focus operation, and the
    call site reads "Create temporary session for this target without switching
    focus": the focused target changes only when a session is obtained with
    [focus=True], and then it becomes that session's target. *)
Definition focus_after (focused : string) (tr : list Entry) : string :=
  fold_left (fun f e => match e with
                        | ECall (GetOrCreateCdpSession t true) (RSession _) => t
                        | _ => f
                        end) tr focused.

(** Dispatches that are not navigation requests. *)
Definition not_navigate (e : Entry) : Prop :=
  match e with
  | ECall (Dispatch ev) _ => is_navigate ev = false
  | _ => True
  end.

(** The number of navigation requests (tab creations) dispatched. *)
Definition nav_count (tr : list Entry) : nat :=
  List.length (filter is_navigate (dispatched tr)).

(** The body of the loop of [_show_dvd_screensaver_on_about_blank_tabs]. *)
Definition inject_if_blank (oracle : Oracle) (label : string) (page_target : PageTarget) : M unit :=
  if String.eqb (url page_target) BLANK
  then _show_dvd_screensaver_loading_animation_cdp oracle (targetId page_target) label
  else ret tt.

Definition is_stopping (s : St) : Prop := stopping s = true.

(** The trace of one injection into target [t]: it starts with the request
    of a session for [t], and a call that fails with [e] is its last call,
    immediately followed by the error log for [e], which closes it. *)
Definition injection_segment (t : string) (seg : list Entry) : Prop :=
  (exists r rest, seg = ECall (GetOrCreateCdpSession t false) r :: rest) /\
  (forall c e, In (ECall c (RError e)) seg ->
     exists pre, seg = (pre ++ [ECall c (RError e);
                               ELog Error ("[AboutBlankWatchdog] Error injecting DVD screensaver: " ++ e)])%list).

(** Every navigation request dispatched opens about:blank in a new tab. *)
Definition nav_is_blank (e : Entry) : Prop :=
  match e with
  | ECall (Dispatch (NavigateToUrlEvent u b)) _ => u = BLANK /\ b = true
  | _ => True
  end.

(** Traces in which every await on the bus is of a navigation request whose
    dispatch, immediately before it, succeeded, and every successful dispatch
    of a navigation request is immediately awaited. *)
Definition await_plain (e : Entry) : bool :=
  match e with
  | ECall (AwaitEvent _) _ => false
  | ECall (Dispatch ev) r => negb (is_navigate ev && reply_ok r)
  | _ => true
  end.

Inductive awaited : list Entry -> Prop :=
| awaited_nil : awaited []
| awaited_plain e tr : await_plain e = true -> awaited tr -> awaited (e :: tr)
| awaited_pair ev r r' tr :
    is_navigate ev = true -> reply_ok r = true -> awaited tr ->
    awaited (ECall (Dispatch ev) r :: ECall (AwaitEvent ev) r' :: tr).

(** Every script evaluated is the payload carrying the given label. *)
Definition eval_with_label (label : string) (e : Entry) : Prop :=
  match e with
  | ECall (RuntimeEvaluate _ ex) _ => ex = dvd_script label
  | _ => True
  end.

(** What happens to one tab's execution context: the watchdog injects the
    payload (once per broadcast that finds the tab blank), or the document
    finishes parsing. *)
Inductive PageOp := Inject | DomReady.

Fixpoint run_page (ops : list PageOp) (w : Window) : Window :=
  match ops with
  | [] => w
  | Inject :: ops' => run_page ops' (fst (run_payload w))
  | DomReady :: ops' => run_page ops' (dom_content_loaded w)
  end.

(** The page carries no decoration, or exactly one overlay, one animation
    loop and one [resize] listener, at most one style, with the marker set. *)
Definition decorated_at_most_once (w : Window) : Prop :=
  (overlays w = 0 /\ animations w = 0 /\ resize_listeners w = 0 /\ styles w = 0) \/
  (overlays w = 1 /\ animations w = 1 /\ resize_listeners w = 1 /\ styles w <= 1 /\
   dvdAnimationRunning w = true).

(** ** Trace properties closed under sequencing *)

Section TraceProperty.

Variable Q : list Entry -> Prop.
Hypothesis Q_nil : Q [].
Hypothesis Q_app : forall a b, Q a -> Q b -> Q (a ++ b)%list.

Definition holds {A} (m : M A) : Prop := forall s, Q (trace_of (m s)).

Lemma holds_ret {A} (a : A) : holds (ret a).
Proof using Q_nil Q_app. intros s; exact Q_nil. Qed.

Lemma holds_raise {A} msg : holds (@raise A msg).
Proof using Q_nil Q_app. intros s; exact Q_nil. Qed.

Lemma holds_bind {A B} (m : M A) (k : A -> M B) :
  holds m -> (forall a, holds (k a)) -> holds (bind m k).
Proof using Q_nil Q_app.
  intros Hm Hk s; unfold bind, trace_of in *.
  specialize (Hm s); destruct (m s) as [[[a|e] s1] t1]; simpl in *; auto.
  specialize (Hk a s1); destruct (k a s1) as [[r2 s2] t2]; simpl in *; auto.
Qed.

Lemma holds_try {A} (m : M A) (h : string -> M A) :
  holds m -> (forall e, holds (h e)) -> holds (try_except m h).
Proof using Q_nil Q_app.
  intros Hm Hh s; unfold try_except, trace_of in *.
  specialize (Hm s); destruct (m s) as [[[a|e] s1] t1]; simpl in *; auto.
  specialize (Hh e s1); destruct (h e s1) as [[r2 s2] t2]; simpl in *; auto.
Qed.

Lemma holds_for_each {A} (f : A -> M unit) l :
  (forall x, holds (f x)) -> holds (for_each f l).
Proof using Q_nil Q_app.
  intros Hf; induction l as [|x l IH]; simpl.
  - apply holds_ret.
  - apply holds_bind; auto.
Qed.

Lemma holds_get_stopping : holds get_stopping.
Proof using Q_nil Q_app. intros s; exact Q_nil. Qed.

Lemma holds_set_stopping b : holds (set_stopping b).
Proof using Q_nil Q_app. intros s; exact Q_nil. Qed.

Lemma holds_label : holds get_session_label.
Proof using Q_nil Q_app. intros s; exact Q_nil. Qed.

Lemma holds_log lvl msg : Q [ELog lvl msg] -> holds (log lvl msg).
Proof using Q_nil Q_app. intros H s; exact H. Qed.

Lemma holds_call oracle c : (forall r, Q [ECall c r]) -> holds (call oracle c).
Proof using Q_nil Q_app. intros H s; apply H. Qed.

Lemma holds_call_unit oracle c : (forall r, Q [ECall c r]) -> holds (call_unit oracle c).
Proof using Q_nil Q_app.
  intros H; unfold call_unit; apply holds_bind; [apply holds_call; auto|].
  intros [] ; try apply holds_ret; apply holds_raise.
Qed.

Lemma holds_get_all_pages oracle :
  (forall r, Q [ECall CdpGetAllPages r]) -> holds (_cdp_get_all_pages oracle).
Proof using Q_nil Q_app.
  intros H; unfold _cdp_get_all_pages; apply holds_bind; [apply holds_call; auto|].
  intros []; try apply holds_ret; apply holds_raise.
Qed.

Lemma holds_get_session oracle t f :
  (forall r, Q [ECall (GetOrCreateCdpSession t f) r]) ->
  holds (get_or_create_cdp_session oracle t f).
Proof using Q_nil Q_app.
  intros H; unfold get_or_create_cdp_session; apply holds_bind; [apply holds_call; auto|].
  intros []; try apply holds_ret; apply holds_raise.
Qed.

End TraceProperty.

Ltac run_oracle :=
  repeat (cbn; match goal with
               | |- context [match ?o ?n ?c with _ => _ end] =>
                   destruct (o n c) eqn:?
               end); cbn.

Lemma good_app a b : good a -> good b -> good (a ++ b)%list.
Proof.
  intros Ha Hb; induction Ha; simpl.
  - exact Hb.
  - apply good_plain; auto.
  - apply good_eval_fail; auto.
  - apply good_eval_ok; auto.
Qed.

Lemma inject_good oracle t label :
  holds good (_show_dvd_screensaver_loading_animation_cdp oracle t label).
Proof.
  intros s; unfold _show_dvd_screensaver_loading_animation_cdp, try_except, bind,
    get_or_create_cdp_session, runtime_evaluate, dispatch, call_unit, call, log,
    ret, raise, trace_of.
  run_oracle; repeat (first [ apply good_nil | apply good_plain; [reflexivity|]
                             | apply good_eval_fail | apply good_eval_ok; [reflexivity|] ]).
Qed.

Ltac holds_solve Qn Qa special :=
  unfold handle, on_BrowserStopEvent, on_BrowserStoppedEvent, on_TabCreatedEvent,
    on_TabClosedEvent, _check_and_ensure_about_blank_tab,
    _show_dvd_screensaver_on_about_blank_tabs, dispatch, await_event, runtime_evaluate;
  repeat first
    [ progress intros
    | special
    | match goal with |- holds _ (if ?b then _ else _) => destruct b end
    | match goal with |- holds _ (match ?x with _ => _ end) => destruct x end
    | apply (holds_get_all_pages _ Qn Qa) | apply (holds_get_session _ Qn Qa)
    | apply (holds_call_unit _ Qn Qa) | apply (holds_log _ Qn Qa)
    | apply (holds_ret _ Qn Qa) | apply (holds_raise _ Qn Qa)
    | apply (holds_get_stopping _ Qn Qa) | apply (holds_set_stopping _ Qn Qa)
    | apply (holds_label _ Qn Qa)
    | apply (holds_bind _ Qn Qa) | apply (holds_try _ Qn Qa)
    | apply (holds_for_each _ Qn Qa) ].

Lemma good_handle oracle ev : holds good (handle oracle ev).
Proof.
  destruct ev; holds_solve good_nil good_app ltac:(apply inject_good);
    apply good_plain; first [reflexivity | exact good_nil].
Qed.

Lemma good_eval_next tr :
  good tr ->
  forall i sess ex r,
    nth_error tr i = Some (ECall (RuntimeEvaluate sess ex) r) -> reply_ok r = true ->
    exists r', nth_error tr (S i) =
               Some (ECall (Dispatch (AboutBlankDVDScreensaverShownEvent (sess_target_id sess))) r').
Proof.
  induction 1 as [|e tr Hp Hg IH|sess0 ex0 m tr Hg IH|sess0 ex0 r0 r1 tr Hr Hg IH];
    intros i sess ex r Hi Hok.
  - destruct i; discriminate.
  - destruct i as [|i]; simpl in Hi.
    + inversion Hi; subst; discriminate.
    + exact (IH i sess ex r Hi Hok).
  - destruct i as [|i]; simpl in Hi.
    + inversion Hi; subst; discriminate.
    + exact (IH i sess ex r Hi Hok).
  - destruct i as [|[|i]]; simpl in Hi.
    + inversion Hi; subst; exists r1; reflexivity.
    + discriminate.
    + exact (IH i sess ex r Hi Hok).
Qed.

Lemma good_shown_prev tr :
  good tr ->
  forall i t r,
    nth_error tr i = Some (ECall (Dispatch (AboutBlankDVDScreensaverShownEvent t)) r) ->
    exists j sess ex r', i = S j /\
      nth_error tr j = Some (ECall (RuntimeEvaluate sess ex) r') /\
      reply_ok r' = true /\ sess_target_id sess = t.
Proof.
  induction 1 as [|e tr Hp Hg IH|sess0 ex0 m tr Hg IH|sess0 ex0 r0 r1 tr Hr Hg IH];
    intros i t r Hi.
  - destruct i; discriminate.
  - destruct i as [|i]; simpl in Hi.
    + inversion Hi; subst; discriminate.
    + destruct (IH i t r Hi) as (j & sess & ex & r' & -> & Hj & Hok & Ht).
      exists (S j), sess, ex, r'; auto.
  - destruct i as [|i]; simpl in Hi.
    + discriminate.
    + destruct (IH i t r Hi) as (j & sess & ex & r' & -> & Hj & Hok & Ht).
      exists (S j), sess, ex, r'; auto.
  - destruct i as [|[|i]]; simpl in Hi.
    + discriminate.
    + inversion Hi; subst. exists 0, sess0, ex0, r0; auto.
    + destruct (IH i t r Hi) as (j & sess & ex & r' & -> & Hj & Hok & Ht).
      exists (S (S j)), sess, ex, r'; auto.
Qed.

Lemma good_no_await_shown tr :
  good tr -> forall t r, ~ In (ECall (AwaitEvent (AboutBlankDVDScreensaverShownEvent t)) r) tr.
Proof.
  induction 1 as [|e tr Hp Hg IH|sess0 ex0 m tr Hg IH|sess0 ex0 r0 r1 tr Hr Hg IH];
    intros t r Hin; simpl in Hin.
  - exact Hin.
  - destruct Hin as [Heq|Hin]; [subst e; discriminate Hp|exact (IH t r Hin)].
  - destruct Hin as [Hin|Hin]; [discriminate|exact (IH t r Hin)].
  - destruct Hin as [Hin|[Hin|Hin]]; try discriminate; exact (IH t r Hin).
Qed.

Lemma Forall_app_intro {X} (P : X -> Prop) a b :
  Forall P a -> Forall P b -> Forall P (a ++ b)%list.
Proof. intros Ha Hb; apply Forall_app; split; assumption. Qed.

Lemma run_events_segments oracle (Q : list Entry -> Prop) :
  (forall ev, holds Q (handle oracle ev)) ->
  forall evs s, Forall (fun seg => Q (snd seg)) (snd (run_events oracle evs s)).
Proof.
  intros Hh evs; induction evs as [|ev evs IH]; intros s; simpl; [constructor|].
  specialize (Hh ev s); unfold trace_of in Hh.
  destruct (handle oracle ev s) as [[r s1] t] eqn:E.
  specialize (IH s1); destruct (run_events oracle evs s1) as [s2 segs].
  constructor; assumption.
Qed.

Lemma allowed_handle oracle ev : holds (Forall dispatch_allowed) (handle oracle ev).
Proof.
  destruct ev; holds_solve (Forall_nil dispatch_allowed) (Forall_app_intro dispatch_allowed) fail;
    repeat (apply Forall_cons || apply Forall_nil); simpl; auto.
Qed.

Lemma unfocused_handle oracle ev : holds (Forall unfocused) (handle oracle ev).
Proof.
  destruct ev; holds_solve (Forall_nil unfocused) (Forall_app_intro unfocused) fail;
    repeat constructor.
Qed.

Lemma dispatched_allowed tr :
  Forall dispatch_allowed tr ->
  forall ev, In ev (dispatched tr) ->
  (exists u b, ev = NavigateToUrlEvent u b) \/ (exists t, ev = AboutBlankDVDScreensaverShownEvent t).
Proof.
  induction 1 as [|e tr He Htr IH]; intros ev Hin; simpl in Hin; [contradiction|].
  apply in_app_or in Hin; destruct Hin as [Hin|Hin]; [|auto].
  destruct e as [c r|]; [|contradiction]; destruct c; simpl in Hin; try contradiction.
  destruct Hin as [<-|[]]; simpl in He.
  destruct e; simpl in He; destruct He as [He|He]; try discriminate; eauto.
Qed.

Lemma focus_after_unfocused tr f :
  Forall unfocused tr -> focus_after f tr = f.
Proof.
  unfold focus_after; revert f; induction tr as [|e tr IH]; intros f H; simpl; [reflexivity|].
  inversion H as [|e' tr' He Htr]; subst.
  destruct e as [c r|]; [destruct c|]; simpl; try (apply IH; assumption).
  simpl in He; subst; apply IH; assumption.
Qed.

Lemma session_targets_app a b :
  session_targets (a ++ b)%list = (session_targets a ++ session_targets b)%list.
Proof. apply flat_map_app. Qed.

Lemma eval_targets_app a b :
  eval_targets (a ++ b)%list = (eval_targets a ++ eval_targets b)%list.
Proof. apply flat_map_app. Qed.

Lemma inject_facts oracle t label s :
  let x := _show_dvd_screensaver_loading_animation_cdp oracle t label s in
  result_of x = Ok tt /\
  session_targets (trace_of x) = [t] /\
  eval_targets (trace_of x) =
    match oracle (pos s) (GetOrCreateCdpSession t false) with
    | RSession _ => [t]
    | _ => []
    end.
Proof.
  unfold _show_dvd_screensaver_loading_animation_cdp, try_except, bind,
    get_or_create_cdp_session, runtime_evaluate, dispatch, call_unit, call, log,
    ret, raise, trace_of, result_of.
  run_oracle; auto.
Qed.

Lemma for_each_inject_facts oracle label ts :
  forall s,
  let x := for_each (inject_if_blank oracle label) ts s in
  result_of x = Ok tt /\
  session_targets (trace_of x) = blank_ids ts /\
  (forall t, In t (eval_targets (trace_of x)) -> In t (blank_ids ts)) /\
  ((forall n t f, exists sid, oracle n (GetOrCreateCdpSession t f) = RSession sid) ->
   eval_targets (trace_of x) = blank_ids ts).
Proof.
  induction ts as [|p ts IH]; intros s; simpl.
  - unfold ret, result_of, trace_of; simpl; repeat split; auto; contradiction.
  - unfold blank_ids; simpl; fold (blank_ids ts).
    destruct (String.eqb (url p) BLANK) eqn:Eb.
    + assert (Hp : inject_if_blank oracle label p =
              _show_dvd_screensaver_loading_animation_cdp oracle (targetId p) label)
        by (unfold inject_if_blank; rewrite Eb; reflexivity).
      rewrite Hp; unfold bind.
      destruct (inject_facts oracle (targetId p) label s) as (R1 & S1 & E1).
      destruct (_show_dvd_screensaver_loading_animation_cdp oracle (targetId p) label s)
        as [[r1 s1] t1]; unfold result_of, trace_of in *; simpl in R1, S1, E1; subst r1.
      destruct (IH s1) as (R2 & S2 & E2 & F2).
      destruct (for_each (inject_if_blank oracle label) ts s1) as [[r2 s2] t2];
        simpl in *.
      rewrite session_targets_app, eval_targets_app, S1, S2, E1.
      repeat split; auto.
      * destruct (oracle (pos s) (GetOrCreateCdpSession (targetId p) false));
          simpl; intros t Hin; try (destruct Hin as [<-|Hin]); auto.
      * intros Hs; destruct (Hs (pos s) (targetId p) false) as [sid Hsid].
        rewrite Hsid, F2; auto.
    + assert (Hp : inject_if_blank oracle label p = ret tt)
        by (unfold inject_if_blank; rewrite Eb; reflexivity).
      rewrite Hp; unfold bind, ret; cbn -[for_each inject_if_blank].
      destruct (IH s) as (R2 & S2 & E2 & F2).
      destruct (for_each (inject_if_blank oracle label) ts s) as [[r2 s2] t2];
        unfold result_of, trace_of in *; simpl in *; auto.
Qed.

Lemma broadcast_facts oracle s ts :
  oracle (pos s) CdpGetAllPages = RPages ts ->
  let x := _show_dvd_screensaver_on_about_blank_tabs oracle s in
  result_of x = Ok tt /\
  session_targets (trace_of x) = blank_ids ts /\
  (forall t, In t (eval_targets (trace_of x)) -> In t (blank_ids ts)) /\
  ((forall n t f, exists sid, oracle n (GetOrCreateCdpSession t f) = RSession sid) ->
   eval_targets (trace_of x) = blank_ids ts).
Proof.
  intros Hp.
  destruct (for_each_inject_facts oracle (last4 (browser_session_id s)) ts
              (mkSt (stopping s) (browser_session_id s) (S (pos s)))) as (R & Sx & E & F).
  destruct (for_each (inject_if_blank oracle (last4 (browser_session_id s))) ts
              (mkSt (stopping s) (browser_session_id s) (S (pos s)))) as [[r s'] t] eqn:Ef.
  unfold result_of, trace_of in *; simpl in R, Sx, E, F; subst r.
  unfold _show_dvd_screensaver_on_about_blank_tabs, try_except, bind, _cdp_get_all_pages,
    call, get_session_label.
  cbn -[for_each inject_if_blank _show_dvd_screensaver_loading_animation_cdp].
  rewrite Hp; cbn -[for_each inject_if_blank _show_dvd_screensaver_loading_animation_cdp].
  fold (inject_if_blank oracle (last4 (browser_session_id s))).
  rewrite Ef; simpl; auto.
Qed.

Lemma broadcast_no_navigate oracle :
  holds (Forall not_navigate) (_show_dvd_screensaver_on_about_blank_tabs oracle).
Proof.
  holds_solve (Forall_nil not_navigate) (Forall_app_intro not_navigate) fail;
    repeat (apply Forall_cons || apply Forall_nil); simpl; auto.
Qed.

Lemma nav_count_zero tr : Forall not_navigate tr -> nav_count tr = 0.
Proof.
  unfold nav_count; induction 1 as [|e tr He Htr IH]; simpl; [reflexivity|].
  rewrite filter_app, length_app, IH.
  destruct e as [c r|]; [destruct c|]; simpl in *; auto; rewrite He; reflexivity.
Qed.

Lemma nav_count_cons e tr :
  nav_count (e :: tr) = List.length (filter is_navigate (dispatched [e])) + nav_count tr.
Proof.
  unfold nav_count; simpl; rewrite app_nil_r, filter_app, length_app; reflexivity.
Qed.

Lemma broadcast_ok oracle s :
  result_of (_show_dvd_screensaver_on_about_blank_tabs oracle s) = Ok tt.
Proof.
  unfold _show_dvd_screensaver_on_about_blank_tabs, try_except, result_of.
  destruct (bind _ _ s) as [[[[]|e] s1] t1]; reflexivity.
Qed.

Lemma inject_segment oracle t label s :
  injection_segment t (trace_of (_show_dvd_screensaver_loading_animation_cdp oracle t label s)).
Proof.
  unfold _show_dvd_screensaver_loading_animation_cdp, try_except, bind,
    get_or_create_cdp_session, runtime_evaluate, dispatch, call_unit, call, log,
    ret, raise, trace_of, injection_segment.
  run_oracle; (split; [do 2 eexists; reflexivity|]);
    intros c e Hin; simpl in Hin;
    repeat (destruct Hin as [Hin|Hin]; [try discriminate Hin; inversion Hin; subst|]);
    try contradiction;
    first [ exists []; reflexivity
          | eexists (_ :: []); reflexivity
          | eexists (_ :: _ :: []); reflexivity ].
Qed.

Lemma for_each_inject_segments oracle label ts :
  forall s, exists segs,
    trace_of (for_each (inject_if_blank oracle label) ts s) = concat segs /\
    Forall2 injection_segment (blank_ids ts) segs.
Proof.
  induction ts as [|p ts IH]; intros s; simpl.
  - exists []; split; [reflexivity|constructor].
  - unfold blank_ids; simpl; fold (blank_ids ts).
    destruct (String.eqb (url p) BLANK) eqn:Eb.
    + assert (Hp : inject_if_blank oracle label p =
              _show_dvd_screensaver_loading_animation_cdp oracle (targetId p) label)
        by (unfold inject_if_blank; rewrite Eb; reflexivity).
      rewrite Hp; unfold bind.
      pose proof (inject_facts oracle (targetId p) label s) as (R1 & _ & _).
      pose proof (inject_segment oracle (targetId p) label s) as G1.
      destruct (_show_dvd_screensaver_loading_animation_cdp oracle (targetId p) label s)
        as [[r1 s1] t1]; unfold result_of, trace_of in *; simpl in R1, G1; subst r1.
      destruct (IH s1) as (segs & T2 & F2).
      destruct (for_each (inject_if_blank oracle label) ts s1) as [[r2 s2] t2];
        unfold trace_of in T2; simpl in *.
      exists (t1 :: segs); split; [simpl; rewrite T2; reflexivity|constructor; assumption].
    + assert (Hp : inject_if_blank oracle label p = ret tt)
        by (unfold inject_if_blank; rewrite Eb; reflexivity).
      rewrite Hp; unfold bind, ret; cbn -[for_each inject_if_blank].
      destruct (IH s) as (segs & T2 & F2).
      destruct (for_each (inject_if_blank oracle label) ts s) as [[r2 s2] t2];
        unfold trace_of in *; simpl in *; eauto.
Qed.

Lemma broadcast_segments oracle s ts :
  oracle (pos s) CdpGetAllPages = RPages ts ->
  exists segs,
    trace_of (_show_dvd_screensaver_on_about_blank_tabs oracle s) =
      ECall CdpGetAllPages (RPages ts) :: concat segs /\
    Forall2 injection_segment (blank_ids ts) segs.
Proof.
  intros Hp.
  destruct (for_each_inject_segments oracle (last4 (browser_session_id s)) ts
              (mkSt (stopping s) (browser_session_id s) (S (pos s)))) as (segs & T & F).
  pose proof (for_each_inject_facts oracle (last4 (browser_session_id s)) ts
              (mkSt (stopping s) (browser_session_id s) (S (pos s)))) as (R & _).
  destruct (for_each (inject_if_blank oracle (last4 (browser_session_id s))) ts
              (mkSt (stopping s) (browser_session_id s) (S (pos s)))) as [[r s'] t] eqn:Ef.
  unfold result_of, trace_of in *; simpl in R, T; subst r t.
  exists segs; split; [|exact F].
  unfold _show_dvd_screensaver_on_about_blank_tabs, try_except, bind, _cdp_get_all_pages,
    call, get_session_label.
  cbn -[for_each inject_if_blank _show_dvd_screensaver_loading_animation_cdp].
  rewrite Hp; cbn -[for_each inject_if_blank _show_dvd_screensaver_loading_animation_cdp].
  fold (inject_if_blank oracle (last4 (browser_session_id s))).
  rewrite Ef; reflexivity.
Qed.

(** ** State invariants *)

Section StateInvariant.

Variable P : St -> Prop.
Hypothesis P_call : forall s, P s -> P (mkSt (stopping s) (browser_session_id s) (S (pos s))).

Definition keeps {A} (m : M A) : Prop := forall s, P s -> P (state_of (m s)).

Lemma keeps_ret {A} (a : A) : keeps (ret a).
Proof using. intros s H; exact H. Qed.

Lemma keeps_raise {A} msg : keeps (@raise A msg).
Proof using. intros s H; exact H. Qed.

Lemma keeps_bind {A B} (m : M A) (k : A -> M B) :
  keeps m -> (forall a, keeps (k a)) -> keeps (bind m k).
Proof using.
  intros Hm Hk s Hs; unfold bind, state_of in *.
  specialize (Hm s Hs); destruct (m s) as [[[a|e] s1] t1]; simpl in *; auto.
  specialize (Hk a s1 Hm); destruct (k a s1) as [[r2 s2] t2]; simpl in *; auto.
Qed.

Lemma keeps_try {A} (m : M A) (h : string -> M A) :
  keeps m -> (forall e, keeps (h e)) -> keeps (try_except m h).
Proof using.
  intros Hm Hh s Hs; unfold try_except, state_of in *.
  specialize (Hm s Hs); destruct (m s) as [[[a|e] s1] t1]; simpl in *; auto.
  specialize (Hh e s1 Hm); destruct (h e s1) as [[r2 s2] t2]; simpl in *; auto.
Qed.

Lemma keeps_for_each {A} (f : A -> M unit) l :
  (forall x, keeps (f x)) -> keeps (for_each f l).
Proof using.
  intros Hf; induction l as [|x l IH]; simpl; [apply keeps_ret|apply keeps_bind; auto].
Qed.

Lemma keeps_log lvl msg : keeps (log lvl msg).
Proof using. intros s H; exact H. Qed.

Lemma keeps_get_stopping : keeps get_stopping.
Proof using. intros s H; exact H. Qed.

Lemma keeps_label : keeps get_session_label.
Proof using. intros s H; exact H. Qed.

Lemma keeps_call oracle c : keeps (call oracle c).
Proof using P_call. intros s H; apply P_call; exact H. Qed.

Lemma keeps_call_unit oracle c : keeps (call_unit oracle c).
Proof using P_call.
  unfold call_unit; apply keeps_bind; [apply keeps_call|].
  intros []; try apply keeps_ret; apply keeps_raise.
Qed.

Lemma keeps_get_all_pages oracle : keeps (_cdp_get_all_pages oracle).
Proof using P_call.
  unfold _cdp_get_all_pages; apply keeps_bind; [apply keeps_call|].
  intros []; try apply keeps_ret; apply keeps_raise.
Qed.

Lemma keeps_get_session oracle t f : keeps (get_or_create_cdp_session oracle t f).
Proof using P_call.
  unfold get_or_create_cdp_session; apply keeps_bind; [apply keeps_call|].
  intros []; try apply keeps_ret; apply keeps_raise.
Qed.

End StateInvariant.

Lemma is_stopping_call s :
  is_stopping s -> is_stopping (mkSt (stopping s) (browser_session_id s) (S (pos s))).
Proof. unfold is_stopping; simpl; auto. Qed.

Lemma handle_keeps_stopping oracle ev : keeps is_stopping (handle oracle ev).
Proof.
  destruct ev; unfold handle, on_BrowserStopEvent, on_BrowserStoppedEvent, on_TabCreatedEvent,
    on_TabClosedEvent, _check_and_ensure_about_blank_tab,
    _show_dvd_screensaver_on_about_blank_tabs, _show_dvd_screensaver_loading_animation_cdp,
    dispatch, await_event, runtime_evaluate;
  repeat first
    [ progress intros
    | match goal with |- keeps _ (if ?b then _ else _) => destruct b end
    | apply (keeps_get_all_pages _ is_stopping_call)
    | apply (keeps_get_session _ is_stopping_call)
    | apply (keeps_call_unit _ is_stopping_call)
    | apply keeps_log | apply keeps_ret | apply keeps_raise
    | apply keeps_get_stopping | apply keeps_label
    | apply keeps_bind | apply keeps_try | apply keeps_for_each ];
  intros s _; reflexivity.
Qed.

Lemma closed_while_stopping oracle t s :
  stopping s = true -> handle oracle (TabClosedEvent t) s = (Ok tt, s, []).
Proof.
  intros H; simpl; unfold on_TabClosedEvent, bind, get_stopping; rewrite H; reflexivity.
Qed.

Lemma run_events_while_stopping oracle evs :
  forall s, stopping s = true ->
  stopping (fst (run_events oracle evs s)) = true /\
  Forall (fun seg => forall t, fst (fst seg) = TabClosedEvent t ->
                               snd seg = [] /\ snd (fst seg) = Ok tt)
         (snd (run_events oracle evs s)).
Proof.
  induction evs as [|ev evs IH]; intros s Hs; simpl; [split; auto|].
  pose proof (handle_keeps_stopping oracle ev s Hs) as Hk; unfold state_of in Hk.
  destruct (handle oracle ev s) as [[r s1] t] eqn:E; simpl in Hk.
  destruct (IH s1 Hk) as [H1 H2].
  destruct (run_events oracle evs s1) as [s2 segs]; simpl in *.
  split; [exact H1|constructor; [|exact H2]].
  simpl; intros t0 ->.
  rewrite (closed_while_stopping oracle t0 s Hs) in E; inversion E; auto.
Qed.

Lemma run_callbacks_running n w :
  dvdAnimationRunning w = true -> run_callbacks n w = w.
Proof.
  revert w; induction n as [|n IH]; intros w H; simpl; [reflexivity|].
  unfold run_payload; rewrite H; simpl; apply IH; exact H.
Qed.

Lemma run_payload_sets_running w :
  has_body w = true -> dvdAnimationRunning (fst (run_payload w)) = true.
Proof.
  destruct w as [rn b h l ti o a rz st cb]; simpl; intros ->; unfold run_payload; simpl.
  destruct rn; simpl; [reflexivity|].
  destruct (String.eqb ti animated_title); simpl; [reflexivity|]; destruct h; reflexivity.
Qed.

Lemma payload_rerun_with_body w :
  has_body w = true -> run_payload (fst (run_payload w)) = (fst (run_payload w), false).
Proof.
  intros Hb; pose proof (run_payload_sets_running w Hb) as Hs.
  unfold run_payload at 1; rewrite Hs; reflexivity.
Qed.

(** ** Claims *)

(** C8: in the trace of every handled event, a script evaluation that
    completes without error is immediately followed by the dispatch of
    exactly one confirmation event carrying its target's id; every
    confirmation dispatched is such a follower; and no confirmation is ever
    awaited (fire-and-forget). *)
Theorem injection_confirmation_dispatch oracle ev s :
  let tr := trace_of (handle oracle ev s) in
  (forall i sess ex r,
     nth_error tr i = Some (ECall (RuntimeEvaluate sess ex) r) -> reply_ok r = true ->
     exists r', nth_error tr (S i) =
       Some (ECall (Dispatch (AboutBlankDVDScreensaverShownEvent (sess_target_id sess))) r')) /\
  (forall i t r,
     nth_error tr i = Some (ECall (Dispatch (AboutBlankDVDScreensaverShownEvent t)) r) ->
     exists j sess ex r', i = S j /\
       nth_error tr j = Some (ECall (RuntimeEvaluate sess ex) r') /\
       reply_ok r' = true /\ sess_target_id sess = t) /\
  (forall t r, ~ In (ECall (AwaitEvent (AboutBlankDVDScreensaverShownEvent t)) r) tr).
Proof.
  intros tr; pose proof (good_handle oracle ev s) as G; fold tr in G.
  split; [|split].
  - exact (good_eval_next tr G).
  - exact (good_shown_prev tr G).
  - exact (good_no_await_shown tr G).
Qed.

(** C9: for every sequence of handled events, every event the watchdog
    dispatches is a navigation request or a screensaver-shown confirmation:
    never a [CloseTabEvent], although [EMITS] lists it. *)
Theorem dispatches_only_navigate_or_shown oracle evs s :
  In KCloseTab EMITS /\
  Forall (fun seg => forall ev, In ev (dispatched (snd seg)) ->
            (exists u b, ev = NavigateToUrlEvent u b) \/
            (exists t, ev = AboutBlankDVDScreensaverShownEvent t))
         (snd (run_events oracle evs s)).
Proof.
  split; [simpl; auto|].
  eapply Forall_impl; [|apply (run_events_segments oracle _ (allowed_handle oracle))].
  intros seg H; exact (dispatched_allowed _ H).
Qed.

(** C10: for every sequence of handled events, every CDP session the
    watchdog requests is requested with focus disabled, so no handler moves
    the focused target. *)
Theorem sessions_without_focus oracle evs s :
  Forall (fun seg => Forall unfocused (snd seg) /\
                     forall f, focus_after f (snd seg) = f)
         (snd (run_events oracle evs s)).
Proof.
  eapply Forall_impl; [|apply (run_events_segments oracle _ (unfocused_handle oracle))].
  intros seg H; split; [exact H|intros f; exact (focus_after_unfocused _ f H)].
Qed.

(** C6: in every indicator broadcast, once the tabs are enumerated, an
    injection is attempted (a session is requested) for every blank tab of the
    enumeration, in order, whatever the other collaborator calls do, and the
    broadcast itself never raises.  The trace after the enumeration is made of
    one segment per blank tab, in the order of the enumeration: each starts
    with the session request for its tab, and a call failing with [e] in it
    (session, evaluation or dispatch) is its last call, immediately followed
    by the log [Error injecting DVD screensaver: e]; the next tab's segment
    follows. *)
Theorem broadcast_attempts_every_blank_tab oracle s ts :
  oracle (pos s) CdpGetAllPages = RPages ts ->
  let x := _show_dvd_screensaver_on_about_blank_tabs oracle s in
  result_of x = Ok tt /\ session_targets (trace_of x) = blank_ids ts /\
  exists segs, trace_of x = ECall CdpGetAllPages (RPages ts) :: concat segs /\
               Forall2 injection_segment (blank_ids ts) segs.
Proof.
  intros Hp; destruct (broadcast_facts oracle s ts Hp) as (R & Sx & _ & _).
  split; [exact R|split; [exact Sx|exact (broadcast_segments oracle s ts Hp)]].
Qed.

(** C7: a [TabCreatedEvent] whose url is about:blank runs the broadcast,
    whose script evaluations only target the blank tabs of the enumeration,
    and target every one of them when the sessions can be obtained; a
    [TabCreatedEvent] with another url does nothing. *)
Theorem tab_created_blank_broadcasts oracle s target u ts :
  (u = "about:blank" -> oracle (pos s) CdpGetAllPages = RPages ts ->
   let x := handle oracle (TabCreatedEvent target u) s in
   x = _show_dvd_screensaver_on_about_blank_tabs oracle s /\
   (forall t, In t (eval_targets (trace_of x)) -> In t (blank_ids ts)) /\
   ((forall n t f, exists sid, oracle n (GetOrCreateCdpSession t f) = RSession sid) ->
    eval_targets (trace_of x) = blank_ids ts)) /\
  (u <> "about:blank" -> handle oracle (TabCreatedEvent target u) s = (Ok tt, s, [])).
Proof.
  split.
  - intros -> Hp; simpl; unfold on_TabCreatedEvent; simpl.
    destruct (broadcast_facts oracle s ts Hp) as (_ & _ & E & F); auto.
  - intros Hu; simpl; unfold on_TabCreatedEvent.
    destruct (String.eqb_spec u BLANK) as [Hb|Hb]; [contradiction|reflexivity].
Qed.

(** C1: a [TabClosedEvent] handled while not stopping, when the enumeration
    returns at most one tab: the handler dispatches
    [NavigateToUrlEvent(url='about:blank', new_tab=True)], awaits it, and only
    when the await completes runs the broadcast over the blank tabs of a fresh
    enumeration; all of this before the handler returns. *)
Theorem last_tab_close_creates_blank_tab oracle s ts :
  stopping s = false ->
  oracle (pos s) CdpGetAllPages = RPages ts ->
  List.length ts <= 1 ->
  let nav := NavigateToUrlEvent "about:blank" true in
  let r1 := oracle (S (pos s)) (Dispatch nav) in
  let r2 := oracle (S (S (pos s))) (AwaitEvent nav) in
  let s3 := mkSt false (browser_session_id s) (S (S (S (pos s)))) in
  exists msg,
    trace_of (on_TabClosedEvent oracle s) =
    ECall CdpGetAllPages (RPages ts) :: ELog Debug msg :: ECall (Dispatch nav) r1 ::
    (if reply_ok r1 then
       ECall (AwaitEvent nav) r2 ::
       (if reply_ok r2 then trace_of (_show_dvd_screensaver_on_about_blank_tabs oracle s3)
        else [])
     else []).
Proof.
  intros Hst Hp Hlen nav r1 r2 s3.
  unfold on_TabClosedEvent, get_stopping, bind, _cdp_get_all_pages, call, log,
    dispatch, await_event, call_unit, ret, raise.
  cbn -[_show_dvd_screensaver_on_about_blank_tabs].
  rewrite Hst, Hp; cbn -[_show_dvd_screensaver_on_about_blank_tabs].
  rewrite (proj2 (Nat.leb_le _ _) Hlen); cbn -[_show_dvd_screensaver_on_about_blank_tabs].
  subst r1 r2 s3 nav; unfold blank_nav, BLANK.
  destruct (oracle (S (pos s)) (Dispatch (NavigateToUrlEvent "about:blank" true)));
    cbn -[_show_dvd_screensaver_on_about_blank_tabs]; eauto;
  destruct (oracle (S (S (pos s))) (AwaitEvent (NavigateToUrlEvent "about:blank" true)));
    cbn -[_show_dvd_screensaver_on_about_blank_tabs]; eauto;
  rewrite Hst; unfold trace_of;
  destruct (_show_dvd_screensaver_on_about_blank_tabs oracle _) as [[? ?] ?]; simpl; eauto.
Qed.

(** C2: the reconciliation [_check_and_ensure_about_blank_tab] does nothing
    but enumerate when the enumeration returns one or more tabs (blank or
    not); when it returns none, it dispatches exactly one
    [NavigateToUrlEvent(url='about:blank', new_tab=True)] and, once the
    dispatch and its await complete, runs the broadcast.  A
    [TabClosedEvent] handled while not stopping whose enumeration returns
    more than one tab runs this reconciliation and nothing else. *)
Theorem reconciliation_creates_only_without_tabs oracle s ts ts' :
  (oracle (pos s) CdpGetAllPages = RPages ts ->
   let x := _check_and_ensure_about_blank_tab oracle s in
   let nav := NavigateToUrlEvent "about:blank" true in
   let r1 := oracle (S (pos s)) (Dispatch nav) in
   let r2 := oracle (S (S (pos s))) (AwaitEvent nav) in
   let s3 := mkSt (stopping s) (browser_session_id s) (S (S (S (pos s)))) in
   result_of x = Ok tt /\
   (ts <> [] ->
    x = (Ok tt, mkSt (stopping s) (browser_session_id s) (S (pos s)),
         [ECall CdpGetAllPages (RPages ts)])) /\
   (ts = [] ->
    nav_count (trace_of x) = 1 /\
    (exists msg rest, trace_of x =
       ECall CdpGetAllPages (RPages []) :: ELog Debug msg :: ECall (Dispatch nav) r1 :: rest) /\
    (reply_ok r1 = true -> reply_ok r2 = true ->
     exists msg, trace_of x =
       ECall CdpGetAllPages (RPages []) :: ELog Debug msg :: ECall (Dispatch nav) r1 ::
       ECall (AwaitEvent nav) r2 ::
       trace_of (_show_dvd_screensaver_on_about_blank_tabs oracle s3)))) /\
  (stopping s = false -> oracle (pos s) CdpGetAllPages = RPages ts' -> 1 < List.length ts' ->
   on_TabClosedEvent oracle s =
   let '(r, s', t) :=
     _check_and_ensure_about_blank_tab oracle
       (mkSt false (browser_session_id s) (S (pos s))) in
   (r, s', ECall CdpGetAllPages (RPages ts') :: t)).
Proof.
  split.
  - intros Hp x nav r1 r2 s3; subst x nav r1 r2 s3.
    unfold _check_and_ensure_about_blank_tab, try_except, bind, _cdp_get_all_pages, call,
      log, dispatch, await_event, call_unit, ret, raise.
    cbn -[_show_dvd_screensaver_on_about_blank_tabs].
    rewrite Hp; cbn -[_show_dvd_screensaver_on_about_blank_tabs].
    destruct ts as [|p ts].
    + unfold blank_nav, BLANK; cbn -[_show_dvd_screensaver_on_about_blank_tabs].
      destruct (oracle (S (pos s)) (Dispatch (NavigateToUrlEvent "about:blank" true)))
        eqn:E1; cbn -[_show_dvd_screensaver_on_about_blank_tabs];
      try (destruct (oracle (S (S (pos s))) (AwaitEvent (NavigateToUrlEvent "about:blank" true)))
             eqn:E2; cbn -[_show_dvd_screensaver_on_about_blank_tabs]);
      try (pose proof (broadcast_no_navigate oracle
                         (mkSt (stopping s) (browser_session_id s) (S (S (S (pos s)))))) as Hb;
           pose proof (broadcast_ok oracle
                         (mkSt (stopping s) (browser_session_id s) (S (S (S (pos s)))))) as Hr;
           unfold trace_of, result_of in Hb, Hr;
           destruct (_show_dvd_screensaver_on_about_blank_tabs oracle _) as [[rb sb] tb];
           simpl in Hb, Hr; subst rb; cbn -[nav_count]);
      (split; [reflexivity|]);
      (split; [intros Hne; contradiction Hne; reflexivity|]);
      intros _; (split; [|split; [eauto|]]);
      try (repeat rewrite nav_count_cons; rewrite ?(nav_count_zero _ Hb); reflexivity);
      try (intros H1 H2; discriminate H1);
      try (intros H1 H2; discriminate H2);
      intros; eexists; reflexivity.
    + cbn. split; [reflexivity|]. split; [reflexivity|]. intros; discriminate.
  - intros Hst Hp Hlen.
    unfold on_TabClosedEvent, get_stopping, bind at 1 2, _cdp_get_all_pages, call.
    cbn -[_check_and_ensure_about_blank_tab].
    rewrite Hst, Hp; cbn -[_check_and_ensure_about_blank_tab].
    destruct (Nat.leb_spec (List.length ts') 1) as [H|H]; [lia|].
    rewrite ?Hst.
    destruct (_check_and_ensure_about_blank_tab oracle _) as [[r s'] t]; reflexivity.
Qed.

(** C3: once a [BrowserStopEvent] or [BrowserStoppedEvent] is handled,
    [_stopping] is true after every later event, and every later
    [TabClosedEvent] returns at once, without any collaborator call (so
    without creating a tab), whatever the tab count. *)
Theorem stop_disables_tab_creation oracle s ev evs :
  ev = BrowserStopEvent \/ ev = BrowserStoppedEvent ->
  (forall n, stopping (fst (run_events oracle (ev :: firstn n evs) s)) = true) /\
  Forall (fun seg => forall t, fst (fst seg) = TabClosedEvent t ->
                               snd seg = [] /\ snd (fst seg) = Ok tt)
         (snd (run_events oracle (ev :: evs) s)).
Proof.
  intros Hev.
  assert (Hst : forall l, run_events oracle (ev :: l) s =
                 let '(s2, segs) := run_events oracle l (mkSt true (browser_session_id s) (pos s)) in
                 (s2, (ev, Ok tt, []) :: segs)).
  { intros l; destruct Hev as [->| ->]; reflexivity. }
  split.
  - intros n; rewrite Hst.
    destruct (run_events_while_stopping oracle (firstn n evs)
                (mkSt true (browser_session_id s) (pos s)) eq_refl) as [H1 _].
    destruct (run_events oracle (firstn n evs) _) as [s2 segs]; exact H1.
  - rewrite Hst.
    destruct (run_events_while_stopping oracle evs
                (mkSt true (browser_session_id s) (pos s)) eq_refl) as [_ H2].
    destruct (run_events oracle evs _) as [s2 segs]; simpl in *.
    constructor; [|exact H2].
    simpl; intros t Ht; destruct Hev; subst; discriminate.
Qed.

(** C4 (failing input): [on_TabClosedEvent] makes its enumeration, its
    dispatch and its await outside any [try]: an exception there reaches the
    bus, whereas [_check_and_ensure_about_blank_tab] catches the same
    exceptions from the same calls. *)
Theorem tab_closed_lets_collaborator_errors_escape :
  result_of (handle enumeration_fails_oracle (TabClosedEvent "X") demo_state)
    = Exc "Target closed" /\
  result_of (handle await_fails_oracle (TabClosedEvent "X") demo_state)
    = Exc "Navigation failed" /\
  result_of (_check_and_ensure_about_blank_tab enumeration_fails_oracle demo_state) = Ok tt /\
  result_of (_check_and_ensure_about_blank_tab await_fails_oracle demo_state) = Ok tt.
Proof. vm_compute; repeat split. Qed.

(** C5 (counterexample): on a document that is still loading and has no
    body, a second run of the payload does not find the marker (the first
    run reset it) and registers a second [DOMContentLoaded] callback. *)
Lemma payload_second_run_on_loading_document_changes_state :
  fst (run_payload (fst (run_payload loading_window))) <> fst (run_payload loading_window).
Proof. vm_compute; intros H; inversion H. Qed.

(** C5 (amended): when the document has a body, or has none and is no
    longer loading, a second run of the payload returns at once, changes
    nothing and does not throw.  In every case, once [DOMContentLoaded] has
    run the pending callbacks, two runs leave the same page (marker, title,
    overlays, animations, listeners, styles) as one. *)
Theorem payload_second_run_is_noop w :
  (has_body w = true \/ ready_state_loading w = false ->
   run_payload (fst (run_payload w)) = (fst (run_payload w), false)) /\
  dom_content_loaded (fst (run_payload (fst (run_payload w))))
    = dom_content_loaded (fst (run_payload w)).
Proof.
  assert (Part1 : has_body w = true \/ ready_state_loading w = false ->
                  run_payload (fst (run_payload w)) = (fst (run_payload w), false)).
  { intros Hw.
    destruct (dvdAnimationRunning w) eqn:Hr.
    - unfold run_payload at 2; rewrite Hr; simpl; unfold run_payload; rewrite Hr; reflexivity.
    - destruct (has_body w) eqn:Hb.
      + pose proof (run_payload_sets_running w Hb) as Hs.
        unfold run_payload at 1; rewrite Hs; reflexivity.
      + destruct Hw as [Hw|Hl]; [discriminate|].
        destruct w as [rn b h l ti o a rz st cb]; simpl in *; subst.
        unfold run_payload; simpl; reflexivity. }
  split; [exact Part1|].
  destruct (has_body w) eqn:Hb.
  - rewrite (f_equal fst (Part1 (or_introl eq_refl))); reflexivity.
  - destruct w as [rn b h l ti o a rz st cb]; simpl in Hb; subst b.
    destruct rn; [reflexivity|].
    destruct l.
    + unfold run_payload, dom_content_loaded; simpl.
      rewrite (f_equal fst (payload_rerun_with_body
                              (mkWindow false true true false ti o a rz st 0) eq_refl)).
      reflexivity.
    + unfold run_payload; simpl; reflexivity.
Qed.

(** ** Witnesses *)

Lemma last_tab_close_creates_blank_tab_witness :
  stopping demo_state = false /\
  one_blank_oracle (pos demo_state) CdpGetAllPages = RPages [mkPageTarget "X" "about:blank"] /\
  List.length [mkPageTarget "X" "about:blank"] <= 1 /\
  exists msg,
    trace_of (on_TabClosedEvent one_blank_oracle demo_state) =
    ECall CdpGetAllPages (RPages [mkPageTarget "X" "about:blank"]) :: ELog Debug msg ::
    ECall (Dispatch (NavigateToUrlEvent "about:blank" true)) RDone ::
    ECall (AwaitEvent (NavigateToUrlEvent "about:blank" true)) RDone ::
    trace_of (_show_dvd_screensaver_on_about_blank_tabs one_blank_oracle
                (mkSt false (browser_session_id demo_state) 3)).
Proof.
  split; [reflexivity|]. split; [reflexivity|]. split; [simpl; lia|].
  exact (last_tab_close_creates_blank_tab one_blank_oracle demo_state
           [mkPageTarget "X" "about:blank"] eq_refl eq_refl (le_n 1)).
Defined.

Lemma broadcast_attempts_every_blank_tab_witness :
  vanished_tab_oracle (pos demo_state) CdpGetAllPages =
    RPages [mkPageTarget "A" "about:blank"; mkPageTarget "B" "https://example.com";
            mkPageTarget "C" "about:blank"] /\
  let x := _show_dvd_screensaver_on_about_blank_tabs vanished_tab_oracle demo_state in
  result_of x = Ok tt /\ session_targets (trace_of x) = ["A"; "C"] /\
  exists segs,
    trace_of x = ECall CdpGetAllPages
                   (RPages [mkPageTarget "A" "about:blank"; mkPageTarget "B" "https://example.com";
                            mkPageTarget "C" "about:blank"]) :: concat segs /\
    Forall2 injection_segment ["A"; "C"] segs.
Proof.
  split; [reflexivity|].
  exact (broadcast_attempts_every_blank_tab vanished_tab_oracle demo_state _ eq_refl).
Defined.

Lemma stop_disables_tab_creation_witness :
  (BrowserStopEvent = BrowserStopEvent \/ BrowserStopEvent = BrowserStoppedEvent) /\
  (forall n, stopping (fst (run_events one_blank_oracle
                              (BrowserStopEvent :: firstn n [TabClosedEvent "X"]) demo_state)) = true) /\
  Forall (fun seg => forall t, fst (fst seg) = TabClosedEvent t ->
                               snd seg = [] /\ snd (fst seg) = Ok tt)
         (snd (run_events one_blank_oracle [BrowserStopEvent; TabClosedEvent "X"] demo_state)).
Proof.
  split; [left; reflexivity|].
  exact (stop_disables_tab_creation one_blank_oracle demo_state BrowserStopEvent
           [TabClosedEvent "X"] (or_introl eq_refl)).
Defined.

(** ** Further properties of the watchdog *)

Lemma check_ok oracle s :
  result_of (_check_and_ensure_about_blank_tab oracle s) = Ok tt.
Proof.
  unfold _check_and_ensure_about_blank_tab, try_except, result_of.
  destruct (bind _ _ s) as [[[[]|e] s1] t1]; reflexivity.
Qed.

Lemma nav_count_app a b : nav_count (a ++ b)%list = nav_count a + nav_count b.
Proof.
  unfold nav_count, dispatched; rewrite flat_map_app, filter_app, length_app; reflexivity.
Qed.

Ltac nav_count_solve Hb :=
  cbn -[nav_count];
  repeat (rewrite ?nav_count_app, ?nav_count_cons);
  rewrite ?(nav_count_zero _ Hb); unfold nav_count, dispatched; simpl; lia.

Lemma check_nav_le1 oracle s :
  nav_count (trace_of (_check_and_ensure_about_blank_tab oracle s)) <= 1.
Proof.
  unfold _check_and_ensure_about_blank_tab, try_except, bind, _cdp_get_all_pages, call,
    log, dispatch, await_event, call_unit, ret, raise, trace_of.
  cbn -[_show_dvd_screensaver_on_about_blank_tabs nav_count].
  destruct (oracle (pos s) CdpGetAllPages) as [ps| | |];
    cbn -[_show_dvd_screensaver_on_about_blank_tabs nav_count]; try (unfold nav_count, dispatched; simpl; lia).
  destruct (Nat.eqb (List.length ps) 0); cbn -[_show_dvd_screensaver_on_about_blank_tabs nav_count];
    [|unfold nav_count, dispatched; simpl; lia].
  pose proof (broadcast_no_navigate oracle
                (mkSt (stopping s) (browser_session_id s) (S (S (S (pos s)))))) as Hb.
  unfold trace_of in Hb.
  destruct (oracle (S (pos s)) (Dispatch blank_nav));
    cbn -[_show_dvd_screensaver_on_about_blank_tabs nav_count];
  try (destruct (oracle (S (S (pos s))) (AwaitEvent blank_nav));
       cbn -[_show_dvd_screensaver_on_about_blank_tabs nav_count]);
  try (destruct (_show_dvd_screensaver_on_about_blank_tabs oracle _) as [[[?|?] ?] ?];
       simpl in Hb);
  nav_count_solve Hb.
Qed.

(** A [TabCreatedEvent] never lets an exception escape its handler, whatever
    its url and whatever the collaborators do. *)
Theorem tab_created_never_raises oracle target u s :
  result_of (handle oracle (TabCreatedEvent target u) s) = Ok tt.
Proof.
  simpl; unfold on_TabCreatedEvent.
  destruct (String.eqb u BLANK); [apply broadcast_ok|reflexivity].
Qed.

(** The reconciliation [_check_and_ensure_about_blank_tab] never lets an
    exception escape, whatever the collaborators do. *)
Theorem reconciliation_never_raises oracle s :
  result_of (_check_and_ensure_about_blank_tab oracle s) = Ok tt.
Proof. apply check_ok. Qed.

(** When the [TabClosedEvent] handler raises [e], the watchdog was not
    stopping and [e] is the failure of one of the handler's own calls, the
    last one it made: its enumeration of the tabs (a reply of the wrong kind
    counts as the exception "unexpected reply"), or, when at most one tab was
    listed, the dispatch of the blank-tab navigation or the await of that
    navigation once dispatched.  With more than one tab listed it never
    raises (the reconciliation catches everything), and once the navigation
    is awaited it never raises (the broadcast catches everything). *)
Theorem tab_closed_raises_only_at_own_calls oracle t s e :
  result_of (handle oracle (TabClosedEvent t) s) = Exc e ->
  stopping s = false /\
  let tr := trace_of (handle oracle (TabClosedEvent t) s) in
  (exists r, tr = [ECall CdpGetAllPages r] /\
             (r = RError e \/ (e = "unexpected reply" /\ forall ps, r <> RPages ps))) \/
  (exists ps m, List.length ps <= 1 /\
     tr = [ECall CdpGetAllPages (RPages ps); ELog Debug m; ECall (Dispatch blank_nav) (RError e)]) \/
  (exists ps m r, List.length ps <= 1 /\ reply_ok r = true /\
     tr = [ECall CdpGetAllPages (RPages ps); ELog Debug m; ECall (Dispatch blank_nav) r;
           ECall (AwaitEvent blank_nav) (RError e)]).
Proof.
  simpl; unfold on_TabClosedEvent, get_stopping, bind, _cdp_get_all_pages, call, log,
    dispatch, await_event, call_unit, ret, raise, result_of, trace_of.
  cbn -[_show_dvd_screensaver_on_about_blank_tabs _check_and_ensure_about_blank_tab].
  destruct (stopping s) eqn:Hst; cbn; [discriminate|].
  destruct (oracle (pos s) CdpGetAllPages) as [ps|sid| |m0] eqn:E0;
    cbn -[_show_dvd_screensaver_on_about_blank_tabs _check_and_ensure_about_blank_tab];
    try (intros H; inversion H; subst; split; [reflexivity|left]; eexists; split; [reflexivity|];
         first [left; reflexivity | right; split; [reflexivity|intros ps' Hc; discriminate Hc]]).
  destruct (Nat.leb_spec (List.length ps) 1) as [Hl|Hl];
    cbn -[_show_dvd_screensaver_on_about_blank_tabs _check_and_ensure_about_blank_tab].
  - destruct (oracle (S (pos s)) (Dispatch blank_nav)) as [p1|s1| |m1] eqn:E1;
      cbn -[_show_dvd_screensaver_on_about_blank_tabs];
    try (intros H; inversion H; subst; split; [reflexivity|right; left];
         do 2 eexists; split; [exact Hl|reflexivity]).
    all: destruct (oracle (S (S (pos s))) (AwaitEvent blank_nav)) as [p2|s2| |m2] eqn:E2;
      cbn -[_show_dvd_screensaver_on_about_blank_tabs];
    try (intros H; inversion H; subst; split; [reflexivity|right; right];
         do 3 eexists; split; [exact Hl|apply and_comm; split; reflexivity]).
    all: pose proof (broadcast_ok oracle
                  (mkSt (stopping s) (browser_session_id s) (S (S (S (pos s)))))) as Hr;
      unfold result_of in Hr;
      destruct (_show_dvd_screensaver_on_about_blank_tabs oracle _) as [[rb sb] tb];
      simpl in Hr; subst rb; simpl; discriminate.
  - pose proof (check_ok oracle (mkSt (stopping s) (browser_session_id s) (S (pos s)))) as Hr.
    unfold result_of in Hr.
    destruct (_check_and_ensure_about_blank_tab oracle _) as [[rc sc] tc];
      simpl in Hr; subst rc; simpl; discriminate.
Qed.

(** Handling one [TabClosedEvent] creates at most one tab: it dispatches at
    most one navigation request. *)
Theorem tab_closed_creates_at_most_one_tab oracle t s :
  nav_count (trace_of (handle oracle (TabClosedEvent t) s)) <= 1.
Proof.
  simpl; unfold on_TabClosedEvent, get_stopping, bind, _cdp_get_all_pages, call, log,
    dispatch, await_event, call_unit, ret, raise, trace_of.
  cbn -[_show_dvd_screensaver_on_about_blank_tabs _check_and_ensure_about_blank_tab nav_count].
  destruct (stopping s); cbn -[nav_count]; [unfold nav_count, dispatched; simpl; lia|].
  destruct (oracle (pos s) CdpGetAllPages) as [ps| | |];
    cbn -[_show_dvd_screensaver_on_about_blank_tabs _check_and_ensure_about_blank_tab nav_count];
    try (unfold nav_count, dispatched; simpl; lia).
  destruct (Nat.leb (List.length ps) 1);
    cbn -[_show_dvd_screensaver_on_about_blank_tabs _check_and_ensure_about_blank_tab nav_count].
  - pose proof (broadcast_no_navigate oracle
                  (mkSt (stopping s) (browser_session_id s) (S (S (S (pos s)))))) as Hb.
    unfold trace_of in Hb.
    destruct (oracle (S (pos s)) (Dispatch blank_nav));
      cbn -[_show_dvd_screensaver_on_about_blank_tabs nav_count];
    try (destruct (oracle (S (S (pos s))) (AwaitEvent blank_nav));
         cbn -[_show_dvd_screensaver_on_about_blank_tabs nav_count]);
    try (destruct (_show_dvd_screensaver_on_about_blank_tabs oracle _) as [[? ?] ?];
         simpl in Hb);
    nav_count_solve Hb.
  - pose proof (check_nav_le1 oracle (mkSt (stopping s) (browser_session_id s) (S (pos s)))) as H.
    unfold trace_of in H.
    destruct (_check_and_ensure_about_blank_tab oracle _) as [[? ?] tc]; simpl in *.
    rewrite nav_count_cons; revert H; unfold nav_count, dispatched; simpl; lia.
Qed.

Lemma tab_closed_raises_only_at_own_calls_witness :
  result_of (handle enumeration_fails_oracle (TabClosedEvent "X") demo_state) = Exc "Target closed" /\
  stopping demo_state = false /\
  let tr := trace_of (handle enumeration_fails_oracle (TabClosedEvent "X") demo_state) in
  (exists r, tr = [ECall CdpGetAllPages r] /\
             (r = RError "Target closed" \/
              ("Target closed" = "unexpected reply" /\ forall ps, r <> RPages ps))) \/
  (exists ps m, List.length ps <= 1 /\
     tr = [ECall CdpGetAllPages (RPages ps); ELog Debug m;
           ECall (Dispatch blank_nav) (RError "Target closed")]) \/
  (exists ps m r, List.length ps <= 1 /\ reply_ok r = true /\
     tr = [ECall CdpGetAllPages (RPages ps); ELog Debug m; ECall (Dispatch blank_nav) r;
           ECall (AwaitEvent blank_nav) (RError "Target closed")]).
Proof.
  split; [reflexivity|].
  exact (tab_closed_raises_only_at_own_calls enumeration_fails_oracle "X" demo_state
           "Target closed" eq_refl).
Defined.

Lemma nav_blank_handle oracle ev : holds (Forall nav_is_blank) (handle oracle ev).
Proof.
  destruct ev; holds_solve (Forall_nil nav_is_blank) (Forall_app_intro nav_is_blank) fail;
    repeat (apply Forall_cons || apply Forall_nil); simpl; auto.
Qed.

Lemma nav_is_blank_dispatched tr u b :
  Forall nav_is_blank tr -> In (NavigateToUrlEvent u b) (dispatched tr) -> u = BLANK /\ b = true.
Proof.
  induction 1 as [|e tr He Htr IH]; simpl; [contradiction|].
  intros Hin; apply in_app_or in Hin; destruct Hin as [Hin|Hin]; [|auto].
  destruct e as [c r|]; [destruct c|]; simpl in Hin; try contradiction.
  destruct Hin as [Heq|[]]; subst; exact He.
Qed.

(** Over every sequence of handled events, every navigation request the
    watchdog dispatches asks for [about:blank] in a new tab: it never
    navigates an existing tab and never opens any other url. *)
Theorem navigation_requests_open_blank_tabs oracle evs s :
  Forall (fun seg => forall u b, In (NavigateToUrlEvent u b) (dispatched (snd seg)) ->
                                 u = BLANK /\ b = true)
         (snd (run_events oracle evs s)).
Proof.
  pose proof (run_events_segments oracle (Forall nav_is_blank) (nav_blank_handle oracle) evs s)
    as H.
  eapply Forall_impl; [|exact H].
  intros seg Hs u b; apply nav_is_blank_dispatched; exact Hs.
Qed.

Lemma awaited_app a b : awaited a -> awaited b -> awaited (a ++ b)%list.
Proof.
  intros Ha Hb; induction Ha; simpl.
  - exact Hb.
  - apply awaited_plain; auto.
  - apply awaited_pair; auto.
Qed.

Lemma nav_then_await oracle ev (k : M unit) :
  is_navigate ev = true -> holds awaited k ->
  holds awaited (bind (call_unit oracle (Dispatch ev))
                   (fun _ => bind (call_unit oracle (AwaitEvent ev)) (fun _ => k))).
Proof.
  intros Hn Hk s; unfold bind, call_unit, call, ret, raise, trace_of.
  cbn.
  destruct (oracle (pos s) (Dispatch ev)) as [| | |m1] eqn:E1; cbn.
  all: try (apply awaited_plain; [simpl; rewrite Hn; reflexivity|exact awaited_nil]).
  all: destruct (oracle (S (pos s)) (AwaitEvent ev)) as [| | |m2] eqn:E2; cbn.
  all: try (apply awaited_pair; [exact Hn|reflexivity|exact awaited_nil]).
  all: specialize (Hk (mkSt (stopping s) (browser_session_id s) (S (S (pos s)))));
       unfold trace_of in Hk;
       destruct (k (mkSt (stopping s) (browser_session_id s) (S (S (pos s))))) as [[rk sk] tk];
       simpl in *; apply awaited_pair; [exact Hn|reflexivity|exact Hk].
Qed.

Lemma awaited_handle oracle ev : holds awaited (handle oracle ev).
Proof.
  destruct ev;
  holds_solve awaited_nil awaited_app
    ltac:(first [ apply nav_then_await; [reflexivity|]
                | progress unfold _show_dvd_screensaver_loading_animation_cdp ]);
    apply awaited_plain; first [reflexivity | exact awaited_nil].
Qed.

Lemma awaited_prev tr :
  awaited tr ->
  forall i e r, nth_error tr i = Some (ECall (AwaitEvent e) r) ->
  exists j r0, i = S j /\ nth_error tr j = Some (ECall (Dispatch e) r0) /\
               reply_ok r0 = true /\ is_navigate e = true.
Proof.
  induction 1 as [|e0 tr Hp Hg IH|ev r0 r1 tr Hn Hr Hg IH]; intros i e r Hi.
  - destruct i; discriminate.
  - destruct i as [|i]; simpl in Hi.
    + inversion Hi; subst; discriminate.
    + destruct (IH i e r Hi) as (j & r' & -> & Hj & Hok & Hnv).
      exists (S j), r'; auto.
  - destruct i as [|[|i]]; simpl in Hi.
    + discriminate.
    + inversion Hi; subst; exists 0, r0; auto.
    + destruct (IH i e r Hi) as (j & r' & -> & Hj & Hok & Hnv).
      exists (S (S j)), r'; auto.
Qed.

Lemma awaited_next tr :
  awaited tr ->
  forall i e r, nth_error tr i = Some (ECall (Dispatch e) r) ->
  is_navigate e = true -> reply_ok r = true ->
  exists r', nth_error tr (S i) = Some (ECall (AwaitEvent e) r').
Proof.
  induction 1 as [|e0 tr Hp Hg IH|ev r0 r1 tr Hn Hr Hg IH]; intros i e r Hi Hne Hok.
  - destruct i; discriminate.
  - destruct i as [|i]; simpl in Hi.
    + inversion Hi; subst; simpl in Hp; rewrite Hne, Hok in Hp; discriminate.
    + exact (IH i e r Hi Hne Hok).
  - destruct i as [|[|i]]; simpl in Hi.
    + inversion Hi; subst; exists r1; reflexivity.
    + discriminate.
    + exact (IH i e r Hi Hne Hok).
Qed.

(** In the trace of every handled event, each await on the bus is of a
    navigation request whose dispatch, immediately before it, completed
    without error; and each navigation request dispatched without error is
    awaited immediately after, before anything else happens. *)
Theorem awaits_follow_their_navigation oracle ev s :
  let tr := trace_of (handle oracle ev s) in
  (forall i e r, nth_error tr i = Some (ECall (AwaitEvent e) r) ->
     exists j r0, i = S j /\ nth_error tr j = Some (ECall (Dispatch e) r0) /\
                  reply_ok r0 = true /\ is_navigate e = true) /\
  (forall i e r, nth_error tr i = Some (ECall (Dispatch e) r) ->
     is_navigate e = true -> reply_ok r = true ->
     exists r', nth_error tr (S i) = Some (ECall (AwaitEvent e) r')).
Proof.
  intros tr; split; [apply awaited_prev|apply awaited_next]; apply awaited_handle.
Qed.

(** When the enumeration of the broadcast [_show_dvd_screensaver_on_about_blank_tabs]
    raises, the broadcast logs the error and returns normally, without any
    other collaborator call. *)
Theorem broadcast_enumeration_failure oracle s e :
  oracle (pos s) CdpGetAllPages = RError e ->
  _show_dvd_screensaver_on_about_blank_tabs oracle s =
    (Ok tt, mkSt (stopping s) (browser_session_id s) (S (pos s)),
     [ECall CdpGetAllPages (RError e);
      ELog Error ("[AboutBlankWatchdog] Error showing DVD screensaver: " ++ e)]).
Proof.
  intros He; unfold _show_dvd_screensaver_on_about_blank_tabs, try_except, bind,
    _cdp_get_all_pages, call, raise, log; cbn; rewrite He; reflexivity.
Qed.

Lemma broadcast_enumeration_failure_witness :
  enumeration_fails_oracle (pos demo_state) CdpGetAllPages = RError "Target closed" /\
  _show_dvd_screensaver_on_about_blank_tabs enumeration_fails_oracle demo_state =
    (Ok tt, mkSt (stopping demo_state) (browser_session_id demo_state) (S (pos demo_state)),
     [ECall CdpGetAllPages (RError "Target closed");
      ELog Error ("[AboutBlankWatchdog] Error showing DVD screensaver: " ++ "Target closed")]).
Proof.
  split; [reflexivity|].
  exact (broadcast_enumeration_failure enumeration_fails_oracle demo_state "Target closed" eq_refl).
Defined.

(** When the enumeration of the reconciliation [_check_and_ensure_about_blank_tab]
    raises, the reconciliation logs the error and returns normally, without
    creating a tab or making any other collaborator call. *)
Theorem reconciliation_enumeration_failure oracle s e :
  oracle (pos s) CdpGetAllPages = RError e ->
  _check_and_ensure_about_blank_tab oracle s =
    (Ok tt, mkSt (stopping s) (browser_session_id s) (S (pos s)),
     [ECall CdpGetAllPages (RError e);
      ELog Error ("[AboutBlankWatchdog] Error ensuring about:blank tab: " ++ e)]).
Proof.
  intros He; unfold _check_and_ensure_about_blank_tab, try_except, bind,
    _cdp_get_all_pages, call, raise, log; cbn; rewrite He; reflexivity.
Qed.

Lemma reconciliation_enumeration_failure_witness :
  enumeration_fails_oracle (pos demo_state) CdpGetAllPages = RError "Target closed" /\
  _check_and_ensure_about_blank_tab enumeration_fails_oracle demo_state =
    (Ok tt, mkSt (stopping demo_state) (browser_session_id demo_state) (S (pos demo_state)),
     [ECall CdpGetAllPages (RError "Target closed");
      ELog Error ("[AboutBlankWatchdog] Error ensuring about:blank tab: " ++ "Target closed")]).
Proof.
  split; [reflexivity|].
  exact (reconciliation_enumeration_failure enumeration_fails_oracle demo_state "Target closed" eq_refl).
Defined.

Lemma for_each_no_blank oracle label ts s :
  Forall (fun p => url p <> BLANK) ts ->
  for_each (inject_if_blank oracle label) ts s = (Ok tt, s, []).
Proof.
  intros H; revert s; induction H as [|p ts Hp Hts IH]; intros s; simpl; [reflexivity|].
  unfold bind, inject_if_blank.
  destruct (String.eqb_spec (url p) BLANK) as [E|E]; [contradiction|].
  unfold ret; rewrite IH; reflexivity.
Qed.

(** When no enumerated tab is blank (no tab at all included), the broadcast
    makes no call beyond the enumeration: no session, no evaluation, no
    dispatch and no log line. *)
Theorem broadcast_without_blank_tabs oracle s ts :
  oracle (pos s) CdpGetAllPages = RPages ts ->
  Forall (fun p => url p <> BLANK) ts ->
  _show_dvd_screensaver_on_about_blank_tabs oracle s =
    (Ok tt, mkSt (stopping s) (browser_session_id s) (S (pos s)), [ECall CdpGetAllPages (RPages ts)]).
Proof.
  intros Hp Hn.
  unfold _show_dvd_screensaver_on_about_blank_tabs, try_except, bind, _cdp_get_all_pages,
    call, get_session_label.
  cbn -[for_each inject_if_blank _show_dvd_screensaver_loading_animation_cdp].
  rewrite Hp; cbn -[for_each inject_if_blank _show_dvd_screensaver_loading_animation_cdp].
  fold (inject_if_blank oracle (last4 (browser_session_id s))).
  rewrite for_each_no_blank by exact Hn; reflexivity.
Qed.

Lemma broadcast_without_blank_tabs_witness :
  no_blank_oracle (pos demo_state) CdpGetAllPages =
    RPages [mkPageTarget "B" "https://example.com"; mkPageTarget "D" "chrome://newtab/"] /\
  Forall (fun p => url p <> BLANK)
    [mkPageTarget "B" "https://example.com"; mkPageTarget "D" "chrome://newtab/"] /\
  _show_dvd_screensaver_on_about_blank_tabs no_blank_oracle demo_state =
    (Ok tt, mkSt (stopping demo_state) (browser_session_id demo_state) (S (pos demo_state)),
     [ECall CdpGetAllPages
        (RPages [mkPageTarget "B" "https://example.com"; mkPageTarget "D" "chrome://newtab/"])]).
Proof.
  assert (Hn : Forall (fun p => url p <> BLANK)
                 [mkPageTarget "B" "https://example.com"; mkPageTarget "D" "chrome://newtab/"])
    by (repeat constructor; simpl; unfold BLANK; discriminate).
  split; [reflexivity|]. split; [exact Hn|].
  exact (broadcast_without_blank_tabs no_blank_oracle demo_state _ eq_refl Hn).
Defined.

(** When the session of a tab is obtained but the evaluation of the payload
    raises, the injection logs that error once, dispatches no confirmation and
    returns normally. *)
Theorem injection_evaluation_failure oracle s t label sid e :
  oracle (pos s) (GetOrCreateCdpSession t false) = RSession sid ->
  oracle (S (pos s)) (RuntimeEvaluate (mkCDPSession t sid) (dvd_script label)) = RError e ->
  result_of (_show_dvd_screensaver_loading_animation_cdp oracle t label s) = Ok tt /\
  trace_of (_show_dvd_screensaver_loading_animation_cdp oracle t label s) =
    [ECall (GetOrCreateCdpSession t false) (RSession sid);
     ECall (RuntimeEvaluate (mkCDPSession t sid) (dvd_script label)) (RError e);
     ELog Error ("[AboutBlankWatchdog] Error injecting DVD screensaver: " ++ e)].
Proof.
  intros H1 H2.
  unfold _show_dvd_screensaver_loading_animation_cdp, try_except, bind,
    get_or_create_cdp_session, runtime_evaluate, dispatch, call_unit, call, log,
    ret, raise, trace_of, result_of.
  cbn -[dvd_script]; rewrite H1; cbn -[dvd_script]; rewrite H2; split; reflexivity.
Qed.

Lemma injection_evaluation_failure_witness :
  eval_fails_oracle (pos demo_state) (GetOrCreateCdpSession "X" false) = RSession "session-X" /\
  eval_fails_oracle (S (pos demo_state))
    (RuntimeEvaluate (mkCDPSession "X" "session-X") (dvd_script "1234")) =
    RError "Execution context was destroyed" /\
  result_of (_show_dvd_screensaver_loading_animation_cdp eval_fails_oracle "X" "1234" demo_state)
    = Ok tt /\
  trace_of (_show_dvd_screensaver_loading_animation_cdp eval_fails_oracle "X" "1234" demo_state) =
    [ECall (GetOrCreateCdpSession "X" false) (RSession "session-X");
     ECall (RuntimeEvaluate (mkCDPSession "X" "session-X") (dvd_script "1234"))
       (RError "Execution context was destroyed");
     ELog Error ("[AboutBlankWatchdog] Error injecting DVD screensaver: "
                 ++ "Execution context was destroyed")].
Proof.
  split; [reflexivity|]. split; [reflexivity|].
  exact (injection_evaluation_failure eval_fails_oracle demo_state "X" "1234" "session-X"
           "Execution context was destroyed" eq_refl eq_refl).
Defined.

Lemma inject_label oracle label t :
  holds (Forall (eval_with_label label))
    (_show_dvd_screensaver_loading_animation_cdp oracle t label).
Proof.
  intros s; unfold _show_dvd_screensaver_loading_animation_cdp, try_except, bind,
    get_or_create_cdp_session, runtime_evaluate, dispatch, call_unit, call, log,
    ret, raise, trace_of.
  run_oracle; repeat constructor.
Qed.

(** Every script evaluated by one broadcast is the payload labelled with the
    last four characters of the browser session id, the same label for every
    blank tab. *)
Theorem broadcast_uses_one_label oracle s :
  Forall (eval_with_label (last4 (browser_session_id s)))
    (trace_of (_show_dvd_screensaver_on_about_blank_tabs oracle s)).
Proof.
  set (label := last4 (browser_session_id s)).
  assert (Hf : forall ts, holds (Forall (eval_with_label label))
                 (for_each (inject_if_blank oracle label) ts)).
  { intros ts; apply (holds_for_each _ (Forall_nil _) (Forall_app_intro _)); intros p.
    unfold inject_if_blank; destruct (String.eqb (url p) BLANK);
      [apply inject_label|apply (holds_ret _ (Forall_nil _) (Forall_app_intro _))]. }
  unfold _show_dvd_screensaver_on_about_blank_tabs, try_except, bind, _cdp_get_all_pages,
    call, get_session_label, trace_of.
  cbn -[for_each inject_if_blank _show_dvd_screensaver_loading_animation_cdp].
  destruct (oracle (pos s) CdpGetAllPages) as [ts| | |];
    cbn -[for_each inject_if_blank _show_dvd_screensaver_loading_animation_cdp];
    try (repeat constructor; fail).
  fold (inject_if_blank oracle (last4 (browser_session_id s))); fold label.
  specialize (Hf ts (mkSt (stopping s) (browser_session_id s) (S (pos s)))).
  unfold trace_of in Hf.
  destruct (for_each (inject_if_blank oracle label) ts _) as [[[[]|m] s2] t2]; simpl in *;
    repeat constructor; try assumption.
  apply Forall_app_intro; [assumption|repeat constructor].
Qed.


Lemma run_payload_decorated w :
  decorated_at_most_once w -> decorated_at_most_once (fst (run_payload w)).
Proof.
  destruct w as [rn b h l ti o a rz st cb]; unfold decorated_at_most_once, run_payload; simpl.
  intros [(-> & -> & -> & ->)|(-> & -> & -> & Hs & ->)]; simpl; [|right; auto].
  destruct rn; simpl; [left; auto|].
  destruct b; simpl; [|destruct l; simpl; left; auto].
  destruct (String.eqb ti animated_title); simpl; [left; auto|].
  destruct h; simpl; right; repeat split; auto.
Qed.

Lemma run_callbacks_decorated n w :
  decorated_at_most_once w -> decorated_at_most_once (run_callbacks n w).
Proof.
  revert w; induction n as [|n IH]; intros w H; simpl; [exact H|].
  apply IH, run_payload_decorated, H.
Qed.

Lemma dom_content_loaded_decorated w :
  decorated_at_most_once w -> decorated_at_most_once (dom_content_loaded w).
Proof.
  intros H; unfold dom_content_loaded; apply run_callbacks_decorated.
  destruct w; exact H.
Qed.

(** However many times the payload is injected into one tab, before or after
    the document finishes parsing, a page that started undecorated ends with
    at most one overlay, one animation loop, one [resize] listener and one
    style element. *)
Theorem payload_decorates_at_most_once ops w :
  overlays w = 0 -> animations w = 0 -> resize_listeners w = 0 -> styles w = 0 ->
  let w' := run_page ops w in
  overlays w' <= 1 /\ animations w' <= 1 /\ resize_listeners w' <= 1 /\ styles w' <= 1.
Proof.
  intros H1 H2 H3 H4 w'.
  assert (Hd : decorated_at_most_once w') .
  { unfold w'; assert (H0 : decorated_at_most_once w) by (left; auto).
    clear H1 H2 H3 H4 w'; revert w H0; induction ops as [|[] ops IH]; intros w H0; simpl.
    - exact H0.
    - apply IH, run_payload_decorated, H0.
    - apply IH, dom_content_loaded_decorated, H0. }
  destruct Hd as [(-> & -> & -> & ->)|(-> & -> & -> & Hs & _)]; lia.
Qed.

Lemma payload_decorates_at_most_once_witness :
  overlays loading_window = 0 /\ animations loading_window = 0 /\
  resize_listeners loading_window = 0 /\ styles loading_window = 0 /\
  let w' := run_page [Inject; DomReady; Inject; Inject] loading_window in
  overlays w' <= 1 /\ animations w' <= 1 /\ resize_listeners w' <= 1 /\ styles w' <= 1.
Proof.
  split; [reflexivity|]. split; [reflexivity|]. split; [reflexivity|]. split; [reflexivity|].
  exact (payload_decorates_at_most_once [Inject; DomReady; Inject; Inject] loading_window
           eq_refl eq_refl eq_refl eq_refl).
Defined.

Lemma substring_full s : substring 0 (String.length s) s = s.
Proof. induction s as [|c s IH]; simpl; [reflexivity|rewrite IH; reflexivity]. Qed.

Lemma substring_suffix s n :
  n <= String.length s ->
  exists p, s = p ++ substring n (String.length s - n) s /\
            String.length (substring n (String.length s - n) s) = String.length s - n.
Proof.
  revert n; induction s as [|c s IH]; intros n Hn; simpl in *.
  - exists ""; destruct n; simpl; auto.
  - destruct n as [|n].
    + exists ""; simpl; rewrite substring_full; auto.
    + destruct (IH n ltac:(lia)) as (p & Hp & Hl).
      exists (String c p); simpl; rewrite <- Hp; auto.
Qed.

(** The label [str(self.browser_session.id)[-4:]] is a suffix of the id, of
    length four, or the whole id when it is shorter. *)
Theorem last4_is_suffix s :
  exists p, s = p ++ last4 s /\ String.length (last4 s) = Nat.min 4 (String.length s).
Proof.
  unfold last4; destruct (Nat.leb_spec (String.length s) 4) as [H|H].
  - exists ""; split; [reflexivity|rewrite Nat.min_r; lia].
  - destruct (substring_suffix s (String.length s - 4) ltac:(lia)) as (p & Hp & Hl).
    replace (String.length s - (String.length s - 4)) with 4 in Hp, Hl by lia.
    exists p; split; [exact Hp|rewrite Hl, Nat.min_l; lia].
Qed.
